(** * server.py: a static-file development server

    A shallow embedding of [server.py] and the properties of its
    content-type override, its command line and its start-up and
    shut-down paths.

    The script is a thin layer over the interpreter's library, so the
    embedding separates three things:

    - [Py]: the language-level operations the script uses ([str.endswith],
      the decimal rendering of an integer inside an f-string, exception
      classes and [except] matching) and the monad in which effectful code
      runs.  A computation reads the outside world, appends to a trace of
      observable events and ends by returning, by raising, or by never
      returning.
    - the script itself: [guess_type], [start_server], [main].
    - [Reference]: one concrete runtime and a few concrete worlds on which
      the general theorems are exercised.

    What the library does ([int], the stock [guess_type], whether a socket
    can be bound, how the serve loop ends) is not fixed by the script: it
    enters as the records [Runtime] and [World], and every theorem holds
    for all of them.  [print] and [Timer.start] are taken to succeed. *)

From Stdlib Require Import String Ascii ZArith List Bool Lia QArith DecimalString.
From Stdlib Require Import DecimalZ.
From ExtLib Require Import Structures.Monad.
Import ListNotations.
Import MonadNotation.

Local Open Scope string_scope.
Local Open Scope Z_scope.
Local Open Scope monad_scope.

(* ===================================================================== *)
(** ** Language level *)
(* ===================================================================== *)

Module Py.

(** [s.endswith(suffix)]: the last [len(suffix)] characters of [s] are
    [suffix]. *)
Definition endswith (s suffix : string) : bool :=
  let n := String.length s in
  let m := String.length suffix in
  (m <=? n)%nat && String.eqb (substring (n - m) m s) suffix.

(** [str(n)] for an integer, which is also what [{n}] inside an f-string
    produces: decimal digits, with a leading minus sign below zero. *)
Definition str (n : Z) : string := NilEmpty.string_of_int (Z.to_int n).

(** [s.lower()], on ASCII letters. *)
Definition lower_char (c : ascii) : ascii :=
  let n := nat_of_ascii c in
  if ((65 <=? n) && (n <=? 90))%nat then ascii_of_nat (n + 32) else c.

Fixpoint lower (s : string) : string :=
  match s with
  | EmptyString => EmptyString
  | String c s' => String (lower_char c) (lower s')
  end.

(** The newline character of the literal ["\n"]. *)
Definition newline : string := String (ascii_of_nat 10) EmptyString.

(** The exception classes that can occur in a run of the script, with
    their place in the built-in hierarchy. *)
Inductive exn : Set :=
| BaseException
| Exception
| KeyboardInterrupt
| OSError
| PermissionError
| ConnectionError
| ValueError
| IndexError
| ArithmeticError
| OverflowError
| RuntimeError.

Definition exn_eqb (a b : exn) : bool :=
  match a, b with
  | BaseException, BaseException | Exception, Exception
  | KeyboardInterrupt, KeyboardInterrupt | OSError, OSError
  | PermissionError, PermissionError | ConnectionError, ConnectionError
  | ValueError, ValueError | IndexError, IndexError
  | ArithmeticError, ArithmeticError | OverflowError, OverflowError
  | RuntimeError, RuntimeError => true
  | _, _ => false
  end.

(** The direct base class. *)
Definition base (c : exn) : option exn :=
  match c with
  | BaseException => None
  | Exception => Some BaseException
  | KeyboardInterrupt => Some BaseException
  | OSError => Some Exception
  | PermissionError => Some OSError
  | ConnectionError => Some OSError
  | ValueError => Some Exception
  | IndexError => Some Exception
  | ArithmeticError => Some Exception
  | OverflowError => Some ArithmeticError
  | RuntimeError => Some Exception
  end.

Fixpoint issubclass_upto (depth : nat) (c d : exn) : bool :=
  exn_eqb c d ||
  match depth with
  | O => false
  | S k => match base c with
           | Some p => issubclass_upto k p d
           | None => false
           end
  end.

(** [issubclass(c, d)]; the hierarchy above is four classes deep. *)
Definition issubclass (c d : exn) : bool := issubclass_upto 4 c d.

(** How a computation ends. *)
Inductive outcome (A : Type) : Type :=
| Returned (a : A)
| Raised (e : exn)
| Blocked.                       (* the call never returns *)

Arguments Returned {A} a.
Arguments Raised {A} e.
Arguments Blocked {A}.

End Py.

Import Py.

(* ===================================================================== *)
(** ** The library the script is written against *)
(* ===================================================================== *)

(** The two request-handler classes in play. *)
Inductive handler_class : Set :=
| SimpleHTTPRequestHandler
| JSHandler.

(** [threading.Timer(interval, function)].  The only function the script
    ever schedules is [lambda: webbrowser.open(url)]. *)
Inductive callback : Set :=
| webbrowser_open (url : string).

Record timer : Set := Timer { interval : Q; function : callback }.

(** [http.server.HTTPServer(server_address, RequestHandlerClass)]. *)
Record server : Set := mkServer {
  server_address : string * Z;
  RequestHandlerClass : handler_class
}.

(** What a run does that can be seen from outside, in order. *)
Inductive event : Set :=
| ENewServer (address : string * Z) (handler : handler_class)
      (* the constructor is called: bind and listen are attempted *)
| EPrint (line : string)
      (* [print(line)] *)
| ETimerStart (t : timer)
      (* [t.start()]: [function t] runs once, [interval t] seconds later *)
| EServeForever (s : server).
      (* the serve loop is entered; requests are handled only from here *)

(** The pure library functions the script calls. *)
Record Runtime : Type := {
  int_of_str : string -> option Z;
      (* [int(s)]; [None] stands for [ValueError] *)
  default_guess_type : string -> string
      (* [SimpleHTTPRequestHandler.guess_type] *)
}.

(** The outside world of one run. *)
Record World : Type := {
  bind_error : string * Z -> option exn;
      (* the exception the constructor raises for this address, if any *)
  serve_interrupt : option exn
      (* the exception that ends the serve loop; [None]: it runs forever *)
}.

(** Effectful code. *)
Definition io (A : Type) : Type := World -> list event * outcome A.

Definition io_ret {A} (a : A) : io A := fun _ => ([], Returned a).

Definition io_bind {A B} (m : io A) (k : A -> io B) : io B :=
  fun w =>
    match m w with
    | (t, Returned a) => let (t', o) := k a w in ((t ++ t')%list, o)
    | (t, Raised e) => (t, Raised e)
    | (t, Blocked) => (t, Blocked)
    end.

#[export] Instance Monad_io : Monad io :=
  {| ret := @io_ret; bind := @io_bind |}.

Definition raise {A} (e : exn) : io A := fun _ => ([], Raised e).

(** [try: body / except c1: h1 / except c2: h2 ...]: the first clause
    whose class the raised exception is an instance of handles it; an
    exception no clause names goes on. *)
Definition try_except {A} (body : io A) (clauses : list (exn * io A)) : io A :=
  fun w =>
    match body w with
    | (t, Raised e) =>
        match find (fun cl => issubclass e (fst cl)) clauses with
        | Some (_, h) => let (t', o) := h w in ((t ++ t')%list, o)
        | None => (t, Raised e)
        end
    | r => r
    end.

Definition print (line : string) : io unit :=
  fun _ => ([EPrint line], Returned tt).

Definition start (t : timer) : io unit :=
  fun _ => ([ETimerStart t], Returned tt).

Definition HTTPServer (address : string * Z) (handler : handler_class) : io server :=
  fun w =>
    ([ENewServer address handler],
     match bind_error w address with
     | Some e => Raised e
     | None => Returned (mkServer address handler)
     end).

Definition serve_forever (s : server) : io unit :=
  fun w =>
    ([EServeForever s],
     match serve_interrupt w with
     | Some e => Raised e
     | None => Blocked
     end).

(** [int(s)] *)
Definition int (rt : Runtime) (s : string) : io Z :=
  match int_of_str rt s with
  | Some n => ret n
  | None => raise ValueError
  end.

(** [l[i]] *)
Definition getitem {A} (l : list A) (i : nat) : io A :=
  match nth_error l i with
  | Some a => ret a
  | None => raise IndexError
  end.

(* ===================================================================== *)
(** ** server.py *)
(* ===================================================================== *)

(** [guess_type], resolved on the class of the handler: [JSHandler]
    overrides it and reaches the inherited method through [super()]. *)
Definition guess_type (rt : Runtime) (cls : handler_class) (path : string) : string :=
  match cls with
  | SimpleHTTPRequestHandler => default_guess_type rt path
  | JSHandler =>
      if endswith path ".js" then "application/javascript"
      else default_guess_type rt path
  end.

(** The body of [start_server]. *)
Definition start_server_body (port : Z) : io unit :=
  try_except
    (server <- HTTPServer ("localhost", port) JSHandler ;;
     let url := "http://localhost:" ++ str port ++ "/index.html" in
     print ("Server running at " ++ url) ;;
     print "Press Ctrl+C to stop" ;;
     start (Timer 1 (webbrowser_open url)) ;;
     serve_forever server)
    [ (OSError,
       print ("Port " ++ str port ++ " in use. Try: python server.py "
                ++ str (port + 1)));
      (KeyboardInterrupt,
       print (newline ++ "Server stopped")) ].

(** [def start_server(port=8000)] *)
Definition start_server (port : option Z) : io unit :=
  start_server_body (match port with Some p => p | None => 8000 end).

(** The [__main__] block, for a given [sys.argv]. *)
Definition main (rt : Runtime) (argv : list string) : io unit :=
  port <- (if (1 <? List.length argv)%nat
           then arg <- getitem argv 1 ;; int rt arg
           else ret 8000) ;;
  start_server (Some port).

(** ** Observing a run *)

Definition trace {A} (r : list event * outcome A) : list event := fst r.
Definition result {A} (r : list event * outcome A) : outcome A := snd r.

(** Exit status of the interpreter once the main module has ended: zero
    when it ran to its end, non-zero after an uncaught exception, none
    while it is still running. *)
Definition exit_code (o : outcome unit) : option Z :=
  match o with
  | Returned _ => Some 0
  | Raised _ => Some 1
  | Blocked => None
  end.

(** The lines written by [print], in order. *)
Fixpoint printed (t : list event) : list string :=
  match t with
  | [] => []
  | EPrint line :: t' => line :: printed t'
  | _ :: t' => printed t'
  end.

(** The calls the timers of a run make: a started [Timer] calls its
    function once, [interval] seconds after [start], and is never
    restarted.  Each entry is a delay in seconds and the call made. *)
Fixpoint scheduled_calls (t : list event) : list (Q * callback) :=
  match t with
  | [] => []
  | ETimerStart tm :: t' => (interval tm, function tm) :: scheduled_calls t'
  | _ :: t' => scheduled_calls t'
  end.

(** Whether the serve loop was entered. *)
Fixpoint serving (t : list event) : bool :=
  match t with
  | [] => false
  | EServeForever _ :: _ => true
  | _ :: t' => serving t'
  end.

(** Whether a server was constructed, that is, whether a bind was
    attempted. *)
Fixpoint server_created (t : list event) : bool :=
  match t with
  | [] => false
  | ENewServer _ _ :: _ => true
  | _ :: t' => server_created t'
  end.

(* ===================================================================== *)
(** ** A reference runtime *)
(* ===================================================================== *)

(** One concrete [Runtime] and some concrete [World]s.  Nothing general is
    proved from them: they are the inputs on which the theorems below are
    run.  Both functions follow the interpreter's behaviour on ASCII
    text ([parse_int] below the interpreter's limit on the number of
    digits); the extension table is an excerpt. *)
Module Reference.

(** ASCII white space, as [int] strips it from ASCII text: tab, line
    feed, vertical tab, form feed, carriage return and space. *)
Definition is_space (c : ascii) : bool :=
  let n := nat_of_ascii c in
  ((9 <=? n) && (n <=? 13) || (n =? 32))%nat.

Fixpoint lstrip (s : string) : string :=
  match s with
  | String c s' => if is_space c then lstrip s' else s
  | EmptyString => s
  end.

Fixpoint rev_onto (s acc : string) : string :=
  match s with
  | String c s' => rev_onto s' (String c acc)
  | EmptyString => acc
  end.

Definition strip (s : string) : string :=
  rev_onto (lstrip (rev_onto (lstrip s) EmptyString)) EmptyString.

Definition digit_value (c : ascii) : option Z :=
  let n := nat_of_ascii c in
  if ((48 <=? n) && (n <=? 57))%nat then Some (Z.of_nat (n - 48)) else None.

(** Decimal digits, where a single underscore may stand between two
    digits.  [after_digit] says whether the previous character was one. *)
Fixpoint digits (acc : Z) (after_digit : bool) (s : string) : option Z :=
  match s with
  | EmptyString => if after_digit then Some acc else None
  | String c s' =>
      if Ascii.eqb c "_"%char
      then (if after_digit then digits acc false s' else None)
      else match digit_value c with
           | Some d => digits (10 * acc + d) true s'
           | None => None
           end
  end.

(** [int(s)] in base ten. *)
Definition parse_int (s : string) : option Z :=
  match strip s with
  | String "+" s' => digits 0 false s'
  | String "-" s' => option_map Z.opp (digits 0 false s')
  | s' => digits 0 false s'
  end.

(** Index of the last occurrence of [c] in [s]. *)
Fixpoint rfind (c : ascii) (s : string) : option nat :=
  match s with
  | EmptyString => None
  | String a s' =>
      match rfind c s' with
      | Some i => Some (S i)
      | None => if Ascii.eqb a c then Some O else None
      end
  end.

Fixpoint all_dots (s : string) : bool :=
  match s with
  | EmptyString => true
  | String c s' => Ascii.eqb c "."%char && all_dots s'
  end.

(** The extension part of [posixpath.splitext(p)]: from the last dot of
    the last path component, unless only dots come before it there. *)
Definition splitext_ext (p : string) : string :=
  let first := match rfind "/"%char p with Some i => S i | None => O end in
  match rfind "."%char p with
  | Some dot =>
      if (first <=? dot)%nat && negb (all_dots (substring first (dot - first) p))
      then substring dot (String.length p - dot) p
      else EmptyString
  | None => EmptyString
  end.

Definition extensions_map : list (string * string) :=
  [ (".html", "text/html"); (".htm", "text/html"); (".css", "text/css");
    (".js", "text/javascript"); (".json", "application/json");
    (".png", "image/png"); (".txt", "text/plain") ].

Fixpoint lookup (k : string) (m : list (string * string)) : option string :=
  match m with
  | [] => None
  | (k', v) :: m' => if String.eqb k k' then Some v else lookup k m'
  end.

(** The stock [guess_type]: the extension as written, then in lower case,
    then the generic binary type. *)
Definition stock_guess_type (path : string) : string :=
  let ext := splitext_ext path in
  match lookup ext extensions_map with
  | Some ty => ty
  | None =>
      match lookup (lower ext) extensions_map with
      | Some ty => ty
      | None => "application/octet-stream"
      end
  end.

Definition runtime : Runtime :=
  {| int_of_str := parse_int; default_guess_type := stock_guess_type |}.

(** The port is free and the user presses Ctrl+C while the server runs. *)
Definition interrupted : World :=
  {| bind_error := fun _ => None; serve_interrupt := Some KeyboardInterrupt |}.

(** The port is free and nothing ever stops the server. *)
Definition undisturbed : World :=
  {| bind_error := fun _ => None; serve_interrupt := None |}.

(** Every port is taken. *)
Definition port_taken : World :=
  {| bind_error := fun _ => Some OSError; serve_interrupt := None |}.

(** The port is outside the range a socket address can hold: the
    constructor raises [OverflowError]. *)
Definition port_out_of_range : World :=
  {| bind_error := fun _ => Some OverflowError; serve_interrupt := None |}.

(** Ctrl+C arrives while the server is being constructed. *)
Definition interrupted_early : World :=
  {| bind_error := fun _ => Some KeyboardInterrupt; serve_interrupt := None |}.

(** The port is free and the serve loop is ended by an [OSError]. *)
Definition serve_loop_fails : World :=
  {| bind_error := fun _ => None; serve_interrupt := Some ConnectionError |}.

End Reference.

(* ===================================================================== *)
(** ** Facts about the language level *)
(* ===================================================================== *)

Section StringFacts.

Lemma substring_whole (s : string) : substring 0 (String.length s) s = s.
Proof. induction s as [|c s IH]; simpl; [reflexivity | now rewrite IH]. Qed.

Lemma substring_past_prefix (p q : string) :
  substring (String.length p) (String.length q) (p ++ q) = q.
Proof.
  induction p as [|c p IH]; simpl.
  - apply substring_whole.
  - exact IH.
Qed.

Lemma substring_cut (s : string) :
  forall n, (n <= String.length s)%nat ->
  s = substring 0 n s ++ substring n (String.length s - n) s.
Proof.
  induction s as [|c s IH]; intros [|n] Hn; simpl in *.
  - reflexivity.
  - lia.
  - now rewrite substring_whole.
  - f_equal. apply IH. lia.
Qed.

Lemma length_app (p q : string) :
  String.length (p ++ q) = (String.length p + String.length q)%nat.
Proof. induction p as [|c p IH]; simpl; [reflexivity | now rewrite IH]. Qed.

(** [endswith] is "has this suffix". *)
Lemma endswith_app (p suffix : string) : endswith (p ++ suffix) suffix = true.
Proof.
  unfold endswith. rewrite length_app.
  replace (String.length p + String.length suffix - String.length suffix)%nat
    with (String.length p) by lia.
  rewrite substring_past_prefix, String.eqb_refl, andb_true_r.
  apply Nat.leb_le. lia.
Qed.

Lemma endswith_inv (s suffix : string) :
  endswith s suffix = true ->
  s = substring 0 (String.length s - String.length suffix) s ++ suffix.
Proof.
  unfold endswith. intros H. apply andb_prop in H as [Hle Heq].
  apply Nat.leb_le in Hle. apply String.eqb_eq in Heq.
  rewrite (substring_cut s (String.length s - String.length suffix)) at 1 by lia.
  replace (String.length s - (String.length s - String.length suffix))%nat
    with (String.length suffix) by lia.
  now rewrite Heq.
Qed.

Lemma endswith_iff (s suffix : string) :
  endswith s suffix = true <-> exists p, s = p ++ suffix.
Proof.
  split.
  - intros H. eexists. apply endswith_inv, H.
  - intros [p ->]. apply endswith_app.
Qed.

(** Two suffixes of one string that are equally long are the same. *)
Lemma endswith_same_length (s a b : string) :
  endswith s a = true -> endswith s b = true ->
  String.length a = String.length b -> a = b.
Proof.
  unfold endswith. intros Ha Hb Hlen.
  apply andb_prop in Ha as [_ Ha]. apply andb_prop in Hb as [_ Hb].
  apply String.eqb_eq in Ha, Hb. rewrite Hlen in Ha. congruence.
Qed.

Lemma lower_length (s : string) : String.length (lower s) = String.length s.
Proof. induction s as [|c s IH]; simpl; congruence. Qed.

End StringFacts.

(** [except OSError] takes [OSError] and its subclasses and nothing else
    that can be raised here. *)
Lemma issubclass_OSError (e : exn) :
  issubclass e OSError = true <->
  e = OSError \/ e = PermissionError \/ e = ConnectionError.
Proof.
  split.
  - destruct e; cbn; intros H; try discriminate H; auto.
  - intros [-> | [-> | ->]]; reflexivity.
Qed.

Lemma issubclass_KeyboardInterrupt (e : exn) :
  issubclass e KeyboardInterrupt = true <-> e = KeyboardInterrupt.
Proof.
  split.
  - destruct e; cbn; intros H; try discriminate H; auto.
  - intros ->; reflexivity.
Qed.

(* ===================================================================== *)
(** ** The content-type override *)
(* ===================================================================== *)

(** The two branches of [JSHandler.guess_type]. *)
Lemma guess_type_override (rt : Runtime) (path : string) :
  endswith path ".js" = true ->
  guess_type rt JSHandler path = "application/javascript".
Proof. intros H. unfold guess_type. now rewrite H. Qed.

Lemma guess_type_inherited (rt : Runtime) (path : string) :
  endswith path ".js" = false ->
  guess_type rt JSHandler path = default_guess_type rt path.
Proof. intros H. unfold guess_type. now rewrite H. Qed.

(** [JSHandler.guess_type] on a path with a stem and the suffix [.js]. *)
Lemma guess_type_stem_js (rt : Runtime) (stem : string) :
  guess_type rt JSHandler (stem ++ ".js") = "application/javascript".
Proof. apply guess_type_override, endswith_app. Qed.

(** C1.  Whatever the requested path, if it ends in [.js] then
    [JSHandler.guess_type] answers [application/javascript].  The answer
    depends on the path alone: no file content is consulted, and the
    inherited resolution, whatever it would say, is not asked. *)
Theorem guess_type_js (rt : Runtime) (path : string) :
  endswith path ".js" = true ->
  guess_type rt JSHandler path = "application/javascript".
Proof.
  intros H. apply endswith_iff in H as [stem ->]. apply guess_type_stem_js.
Qed.

Lemma guess_type_js_witness :
  guess_type Reference.runtime JSHandler "/game/tiles.js" = "application/javascript".
Proof. apply guess_type_js. reflexivity. Defined.

(** C6.  On a path that does not end in [.js], [JSHandler.guess_type] is
    the inherited [SimpleHTTPRequestHandler.guess_type]: the standard
    mapping from extensions to types decides, including its fall-back for
    extensions it does not know. *)
Theorem guess_type_delegates (rt : Runtime) (path : string) :
  endswith path ".js" = false ->
  guess_type rt JSHandler path = guess_type rt SimpleHTTPRequestHandler path
  /\ guess_type rt JSHandler path = default_guess_type rt path.
Proof. intros H. unfold guess_type. rewrite H. split; reflexivity. Qed.

Lemma guess_type_delegates_witness :
  guess_type Reference.runtime JSHandler "/index.html" = "text/html"
  /\ guess_type Reference.runtime JSHandler "/save.dat" = "application/octet-stream".
Proof.
  split.
  - exact (proj2 (guess_type_delegates Reference.runtime "/index.html" eq_refl)).
  - exact (proj2 (guess_type_delegates Reference.runtime "/save.dat" eq_refl)).
Defined.

(** A suffix that reads [.js] once put in lower case has three
    characters. *)
Lemma lower_js_length (suffix : string) :
  lower suffix = ".js" -> String.length suffix = 3%nat.
Proof. intros H. rewrite <- lower_length, H. reflexivity. Qed.

(** C10.  The override looks at the case of the suffix.  Take any path
    that ends in some spelling of [.js] ([.js], [.JS], [.Js], [.jS]).
    When the spelling is exactly [.js] the answer is forced to
    [application/javascript] whatever the inherited method would say; for
    every other spelling the answer is the one of the inherited
    method. *)
Theorem js_override_case_sensitive (path suffix : string) :
  lower suffix = ".js" ->
  endswith path suffix = true ->
  if String.eqb suffix ".js"
  then forall rt, guess_type rt JSHandler path = "application/javascript"
  else endswith path ".js" = false
       /\ forall rt, guess_type rt JSHandler path = default_guess_type rt path.
Proof.
  intros Hlow Hend. destruct (String.eqb_spec suffix ".js") as [-> | Hne].
  - intros rt. now apply guess_type_override.
  - assert (Hjs : endswith path ".js" = false).
    { destruct (endswith path ".js") eqn:E; [|reflexivity].
      exfalso. apply Hne.
      apply (endswith_same_length path); auto.
      now apply lower_js_length. }
    split; [exact Hjs|]. intros rt. now apply guess_type_inherited.
Qed.

Lemma js_override_case_sensitive_witness :
  guess_type Reference.runtime JSHandler "/game/TILES.JS" = "text/javascript"
  /\ guess_type Reference.runtime JSHandler "/game/tiles.js" = "application/javascript".
Proof.
  split.
  - exact (proj2 (js_override_case_sensitive "/game/TILES.JS" ".JS" eq_refl eq_refl)
             Reference.runtime).
  - exact (js_override_case_sensitive "/game/tiles.js" ".js" eq_refl eq_refl
             Reference.runtime).
Defined.

(* ===================================================================== *)
(** ** Starting and stopping *)
(* ===================================================================== *)

Section Runs.

Variable w : World.
Variable P : Z.

(** The run when the constructor raises an exception of class [OSError]
    or below. *)
Lemma run_bind_refused (e : exn) :
  bind_error w ("localhost", P) = Some e ->
  issubclass e OSError = true ->
  start_server_body P w =
    ([ENewServer ("localhost", P) JSHandler;
      EPrint ("Port " ++ str P ++ " in use. Try: python server.py " ++ str (P + 1))],
     Returned tt).
Proof.
  intros Hb He. unfold start_server_body, try_except. cbn -[issubclass].
  unfold io_bind, HTTPServer. rewrite Hb. cbn -[issubclass]. rewrite He.
  reflexivity.
Qed.

(** The run when the socket is bound: the start-up events, then whatever
    ends the serve loop, if anything does. *)
Lemma run_bound :
  bind_error w ("localhost", P) = None ->
  start_server_body P w =
    let url := "http://localhost:" ++ str P ++ "/index.html" in
    let startup :=
      [ENewServer ("localhost", P) JSHandler;
       EPrint ("Server running at " ++ url);
       EPrint "Press Ctrl+C to stop";
       ETimerStart (Timer 1 (webbrowser_open url));
       EServeForever (mkServer ("localhost", P) JSHandler)] in
    match serve_interrupt w with
    | None => (startup, Blocked)
    | Some e =>
        if issubclass e OSError then
          (startup ++
           [EPrint ("Port " ++ str P ++ " in use. Try: python server.py "
                      ++ str (P + 1))],
           Returned tt)%list
        else if issubclass e KeyboardInterrupt then
          (startup ++ [EPrint (newline ++ "Server stopped")], Returned tt)%list
        else (startup, Raised e)
    end.
Proof.
  intros Hb. unfold start_server_body, try_except. cbn -[issubclass].
  unfold io_bind, HTTPServer. rewrite Hb. cbn -[issubclass].
  destruct (serve_interrupt w) as [e|]; [|reflexivity].
  cbn -[issubclass]. destruct (issubclass e OSError); [reflexivity|].
  destruct (issubclass e KeyboardInterrupt); reflexivity.
Qed.

(** With the socket bound and Ctrl+C pressed during the serve loop. *)
Lemma run_interrupted :
  bind_error w ("localhost", P) = None ->
  serve_interrupt w = Some KeyboardInterrupt ->
  start_server_body P w =
    let url := "http://localhost:" ++ str P ++ "/index.html" in
    ([ENewServer ("localhost", P) JSHandler;
      EPrint ("Server running at " ++ url);
      EPrint "Press Ctrl+C to stop";
      ETimerStart (Timer 1 (webbrowser_open url));
      EServeForever (mkServer ("localhost", P) JSHandler);
      EPrint (newline ++ "Server stopped")],
     Returned tt).
Proof. intros Hb Hs. rewrite (run_bound Hb), Hs. reflexivity. Qed.

End Runs.

(** What [main] makes of [sys.argv]. *)
Lemma main_no_argument (rt : Runtime) (prog : string) (w : World) :
  main rt [prog] w = start_server_body 8000 w.
Proof.
  unfold main, start_server. cbn. unfold io_bind. cbn.
  destruct (start_server_body 8000 w). reflexivity.
Qed.

Lemma main_port_argument (rt : Runtime) (prog arg : string) (more : list string)
    (w : World) (P : Z) :
  int_of_str rt arg = Some P ->
  main rt (prog :: arg :: more) w = start_server_body P w.
Proof.
  intros H. unfold main, start_server. cbn. unfold io_bind, int. cbn.
  rewrite H. cbn.
  destruct (start_server_body P w). reflexivity.
Qed.

Lemma main_bad_argument (rt : Runtime) (prog arg : string) (more : list string)
    (w : World) :
  int_of_str rt arg = None ->
  main rt (prog :: arg :: more) w = ([], Raised ValueError).
Proof.
  intros H. unfold main. cbn. unfold io_bind, int. cbn. rewrite H. reflexivity.
Qed.

(** The first thing [start_server] does is to construct the server. *)
Lemma start_server_first_event (w : World) (P : Z) :
  hd_error (trace (start_server_body P w))
  = Some (ENewServer ("localhost", P) JSHandler).
Proof.
  destruct (bind_error w ("localhost", P)) as [e|] eqn:Hb.
  - unfold start_server_body, try_except. cbn -[issubclass].
    unfold io_bind, HTTPServer. rewrite Hb. cbn -[issubclass].
    destruct (issubclass e OSError); [reflexivity|].
    destruct (issubclass e KeyboardInterrupt); reflexivity.
  - rewrite (run_bound w P Hb). cbv zeta.
    destruct (serve_interrupt w) as [e|]; [|reflexivity].
    destruct (issubclass e OSError); [reflexivity|].
    destruct (issubclass e KeyboardInterrupt); reflexivity.
Qed.

(* ===================================================================== *)
(** ** The command line *)
(* ===================================================================== *)

(** C2.  Started with no argument ([sys.argv] holds the script name
    only), the program serves on port 8000: [main] runs [start_server]
    on 8000, which is also the default of its parameter, and the address
    it tries to bind is [("localhost", 8000)]. *)
Theorem default_port_8000 (rt : Runtime) (prog : string) (w : World) :
  main rt [prog] w = start_server (Some 8000) w
  /\ start_server None w = start_server (Some 8000) w
  /\ hd_error (trace (main rt [prog] w))
     = Some (ENewServer ("localhost", 8000) JSHandler).
Proof.
  split; [apply main_no_argument|]. split; [reflexivity|].
  rewrite main_no_argument. apply start_server_first_event.
Qed.

(** C5.  When the first argument reads as the integer [P], the program
    runs [start_server] on [P], and the first thing it does is to
    construct the server on [("localhost", P)]: the bind is attempted on
    that port.  Further arguments are ignored. *)
Theorem port_argument_is_bound (rt : Runtime) (prog arg : string)
    (more : list string) (w : World) (P : Z) :
  int_of_str rt arg = Some P ->
  main rt (prog :: arg :: more) w = start_server (Some P) w
  /\ hd_error (trace (main rt (prog :: arg :: more) w))
     = Some (ENewServer ("localhost", P) JSHandler).
Proof.
  intros H. rewrite (main_port_argument rt prog arg more w P H).
  split; [reflexivity | apply start_server_first_event].
Qed.

Lemma port_argument_is_bound_witness :
  main Reference.runtime ["server.py"; "8080"] Reference.undisturbed
  = start_server (Some 8080) Reference.undisturbed
  /\ hd_error (trace (main Reference.runtime ["server.py"; "8080"]
                        Reference.undisturbed))
     = Some (ENewServer ("localhost", 8080) JSHandler).
Proof.
  exact (port_argument_is_bound Reference.runtime "server.py" "8080" []
           Reference.undisturbed 8080 eq_refl).
Defined.

(** C9.  When the first argument does not read as an integer, [int]
    raises [ValueError] and nothing catches it: the run ends there, with
    no event at all, so no server was constructed, no socket bound and
    no handler of [start_server] reached. *)
Theorem unparseable_port_raises (rt : Runtime) (prog arg : string)
    (more : list string) (w : World) :
  int_of_str rt arg = None ->
  let r := main rt (prog :: arg :: more) w in
  result r = Raised ValueError
  /\ trace r = []
  /\ server_created (trace r) = false
  /\ printed (trace r) = [].
Proof.
  intros H r. subst r. rewrite (main_bad_argument rt prog arg more w H).
  repeat split.
Qed.

Lemma unparseable_port_raises_witness :
  result (main Reference.runtime ["server.py"; "eighty"] Reference.undisturbed)
  = Raised ValueError
  /\ trace (main Reference.runtime ["server.py"; "eighty"] Reference.undisturbed)
     = []
  /\ server_created
       (trace (main Reference.runtime ["server.py"; "eighty"]
                 Reference.undisturbed)) = false
  /\ printed
       (trace (main Reference.runtime ["server.py"; "eighty"]
                 Reference.undisturbed)) = [].
Proof.
  exact (unparseable_port_raises Reference.runtime "server.py" "eighty" []
           Reference.undisturbed eq_refl).
Defined.

(* ===================================================================== *)
(** ** The two handled errors *)
(* ===================================================================== *)

(** C3.  Whatever the port [P]: when constructing the server on
    [("localhost", P)] raises [OSError] (or an exception of a class
    below it), the run prints one line, [Port P in use. Try: python
    server.py Q] with [Q = P + 1], and nothing else, never enters the
    serve loop, and [start_server] returns. *)
Theorem bind_failure_reported (w : World) (P : Z) (e : exn) :
  bind_error w ("localhost", P) = Some e ->
  issubclass e OSError = true ->
  let r := start_server (Some P) w in
  printed (trace r)
  = ["Port " ++ str P ++ " in use. Try: python server.py " ++ str (P + 1)]
  /\ serving (trace r) = false
  /\ result r = Returned tt.
Proof.
  intros Hb He r. subst r. unfold start_server.
  rewrite (run_bind_refused w P e Hb He). repeat split.
Qed.

Lemma bind_failure_reported_witness :
  printed (trace (start_server (Some 8000) Reference.port_taken))
  = ["Port 8000 in use. Try: python server.py 8001"]
  /\ serving (trace (start_server (Some 8000) Reference.port_taken)) = false
  /\ result (start_server (Some 8000) Reference.port_taken) = Returned tt.
Proof.
  exact (bind_failure_reported Reference.port_taken 8000 OSError eq_refl eq_refl).
Defined.

(** C4.  When the socket is bound and [KeyboardInterrupt] is raised in
    the serve loop, the exception is caught: the line after the entry
    into the serve loop is the stop message, it is the last event, and
    [start_server] returns instead of raising. *)
Theorem keyboard_interrupt_stops_server (w : World) (P : Z) :
  bind_error w ("localhost", P) = None ->
  serve_interrupt w = Some KeyboardInterrupt ->
  let r := start_server (Some P) w in
  (exists before srv,
     trace r = (before ++ [EServeForever srv;
                           EPrint (newline ++ "Server stopped")])%list)
  /\ result r = Returned tt.
Proof.
  intros Hb Hs r. subst r. unfold start_server.
  rewrite (run_interrupted w P Hb Hs). cbv zeta. split; [|reflexivity].
  eexists [_; _; _; _], _. reflexivity.
Qed.

Lemma keyboard_interrupt_stops_server_witness :
  (exists before srv,
     trace (start_server (Some 8000) Reference.interrupted)
     = (before ++ [EServeForever srv;
                   EPrint (newline ++ "Server stopped")])%list)
  /\ result (start_server (Some 8000) Reference.interrupted) = Returned tt.
Proof.
  exact (keyboard_interrupt_stops_server Reference.interrupted 8000
           eq_refl eq_refl).
Defined.

(** C8.  On each of the two handled paths [start_server] prints the
    message of that path and returns; no exception leaves it.  With the
    bind refused by an [OSError] the output is the port-in-use line
    alone; with the serve loop ended by [KeyboardInterrupt] it is the
    two start-up lines followed by the stop message.  On both, the
    message is the last thing the run does, [main] returns as well, and
    the process ends with status 0. *)
Theorem error_paths_return_normally (rt : Runtime) (prog arg : string)
    (w : World) (P : Z) :
  int_of_str rt arg = Some P ->
  (exists e, bind_error w ("localhost", P) = Some e
             /\ issubclass e OSError = true)
  \/ (bind_error w ("localhost", P) = None
      /\ serve_interrupt w = Some KeyboardInterrupt) ->
  let r := start_server (Some P) w in
  let message :=
    match bind_error w ("localhost", P) with
    | Some _ =>
        "Port " ++ str P ++ " in use. Try: python server.py " ++ str (P + 1)
    | None => newline ++ "Server stopped"
    end in
  result r = Returned tt
  /\ printed (trace r)
     = match bind_error w ("localhost", P) with
       | Some _ => [message]
       | None =>
           ["Server running at http://localhost:" ++ str P ++ "/index.html";
            "Press Ctrl+C to stop";
            message]
       end
  /\ last (trace r) (EPrint EmptyString) = EPrint message
  /\ result (main rt [prog; arg] w) = Returned tt
  /\ exit_code (result (main rt [prog; arg] w)) = Some 0.
Proof.
  intros Hint Hpath. cbv zeta.
  rewrite (main_port_argument rt prog arg [] w P Hint). unfold start_server.
  destruct Hpath as [[e [Hb He]] | [Hb Hs]].
  - rewrite (run_bind_refused w P e Hb He), Hb. repeat split.
  - rewrite (run_interrupted w P Hb Hs), Hb. repeat split.
Qed.

Lemma error_paths_return_normally_witness :
  (result (start_server (Some 8000) Reference.port_taken) = Returned tt
   /\ printed (trace (start_server (Some 8000) Reference.port_taken))
      = ["Port 8000 in use. Try: python server.py 8001"]
   /\ last (trace (start_server (Some 8000) Reference.port_taken))
           (EPrint EmptyString)
      = EPrint "Port 8000 in use. Try: python server.py 8001"
   /\ result (main Reference.runtime ["server.py"; "8000"] Reference.port_taken)
      = Returned tt
   /\ exit_code (result (main Reference.runtime ["server.py"; "8000"]
                           Reference.port_taken)) = Some 0)
  /\ (result (start_server (Some 8000) Reference.interrupted) = Returned tt
      /\ printed (trace (start_server (Some 8000) Reference.interrupted))
         = ["Server running at http://localhost:8000/index.html";
            "Press Ctrl+C to stop";
            newline ++ "Server stopped"]
      /\ last (trace (start_server (Some 8000) Reference.interrupted))
              (EPrint EmptyString)
         = EPrint (newline ++ "Server stopped")
      /\ result (main Reference.runtime ["server.py"; "8000"]
                   Reference.interrupted) = Returned tt
      /\ exit_code (result (main Reference.runtime ["server.py"; "8000"]
                              Reference.interrupted)) = Some 0).
Proof.
  split.
  - exact (error_paths_return_normally Reference.runtime "server.py" "8000"
             Reference.port_taken 8000 eq_refl
             (or_introl (ex_intro _ OSError (conj eq_refl eq_refl)))).
  - exact (error_paths_return_normally Reference.runtime "server.py" "8000"
             Reference.interrupted 8000 eq_refl
             (or_intror (conj eq_refl eq_refl))).
Defined.

(* ===================================================================== *)
(** ** The browser *)
(* ===================================================================== *)

(** C7.  Once the socket is bound on port [P], the run starts one timer
    and no other: it is set to one second and its only call opens the
    browser on [http://localhost:P/index.html].  This holds however the
    serve loop ends afterwards. *)
Theorem browser_open_scheduled_once (w : World) (P : Z) :
  bind_error w ("localhost", P) = None ->
  scheduled_calls (trace (start_server (Some P) w))
  = [(1%Q, webbrowser_open ("http://localhost:" ++ str P ++ "/index.html"))].
Proof.
  intros Hb. unfold start_server. rewrite (run_bound w P Hb). cbv zeta.
  destruct (serve_interrupt w) as [e|]; [|reflexivity].
  destruct (issubclass e OSError); [reflexivity|].
  destruct (issubclass e KeyboardInterrupt); reflexivity.
Qed.

Lemma browser_open_scheduled_once_witness :
  scheduled_calls (trace (start_server (Some 8000) Reference.undisturbed))
  = [(1%Q, webbrowser_open "http://localhost:8000/index.html")].
Proof.
  exact (browser_open_scheduled_once Reference.undisturbed 8000 eq_refl).
Defined.

(* ===================================================================== *)
(** ** Every run of [start_server] *)
(* ===================================================================== *)

(** All the runs of [start_server] at once: what the constructor does,
    then what ends the serve loop, then which [except] clause applies. *)
Lemma start_server_eq (w : World) (P : Z) :
  start_server_body P w =
    let url := "http://localhost:" ++ str P ++ "/index.html" in
    let in_use :=
      EPrint ("Port " ++ str P ++ " in use. Try: python server.py "
                ++ str (P + 1)) in
    let stopped := EPrint (newline ++ "Server stopped") in
    let startup :=
      [ENewServer ("localhost", P) JSHandler;
       EPrint ("Server running at " ++ url);
       EPrint "Press Ctrl+C to stop";
       ETimerStart (Timer 1 (webbrowser_open url));
       EServeForever (mkServer ("localhost", P) JSHandler)] in
    match bind_error w ("localhost", P) with
    | Some e =>
        if issubclass e OSError then
          ([ENewServer ("localhost", P) JSHandler; in_use], Returned tt)
        else if issubclass e KeyboardInterrupt then
          ([ENewServer ("localhost", P) JSHandler; stopped], Returned tt)
        else ([ENewServer ("localhost", P) JSHandler], Raised e)
    | None =>
        match serve_interrupt w with
        | None => (startup, Blocked)
        | Some e =>
            if issubclass e OSError then
              (startup ++ [in_use], Returned tt)%list
            else if issubclass e KeyboardInterrupt then
              (startup ++ [stopped], Returned tt)%list
            else (startup, Raised e)
        end
    end.
Proof.
  cbv zeta. destruct (bind_error w ("localhost", P)) as [e|] eqn:Hb.
  - unfold start_server_body, try_except. cbn -[issubclass].
    unfold io_bind, HTTPServer. rewrite Hb. cbn -[issubclass].
    destruct (issubclass e OSError); [reflexivity|].
    destruct (issubclass e KeyboardInterrupt); reflexivity.
  - rewrite (run_bound w P Hb). reflexivity.
Qed.

(** [main] either stops at [int] or is a run of [start_server]. *)
Lemma main_short (rt : Runtime) (argv : list string) (w : World) :
  nth_error argv 1 = None -> main rt argv w = start_server_body 8000 w.
Proof.
  destruct argv as [|prog [|arg more]]; intros H; try discriminate H.
  - unfold main, start_server. cbn. unfold io_bind. cbn.
    destruct (start_server_body 8000 w). reflexivity.
  - apply main_no_argument.
Qed.

Lemma main_cases (rt : Runtime) (argv : list string) (w : World) :
  main rt argv w = ([], Raised ValueError)
  \/ exists P, main rt argv w = start_server_body P w.
Proof.
  destruct argv as [|prog [|arg more]].
  - right. exists 8000. now apply main_short.
  - right. exists 8000. now apply main_short.
  - destruct (int_of_str rt arg) as [P|] eqn:E.
    + right. exists P. now apply main_port_argument.
    + left. now apply main_bad_argument.
Qed.

(* ===================================================================== *)
(** ** Exceptions the script does not handle *)
(* ===================================================================== *)

(** X1.  An exception of the constructor that is neither an [OSError]
    nor a [KeyboardInterrupt] (the [OverflowError] of a port that does
    not fit a socket address, say) is not handled: it leaves
    [start_server], and nothing has been printed by then. *)
Theorem unhandled_bind_error_propagates (w : World) (P : Z) (e : exn) :
  bind_error w ("localhost", P) = Some e ->
  issubclass e OSError = false ->
  issubclass e KeyboardInterrupt = false ->
  let r := start_server (Some P) w in
  result r = Raised e /\ printed (trace r) = [].
Proof.
  intros Hb H1 H2 r. subst r. unfold start_server.
  rewrite start_server_eq, Hb, H1, H2. split; reflexivity.
Qed.

Lemma unhandled_bind_error_propagates_witness :
  result (start_server (Some 70000) Reference.port_out_of_range)
  = Raised OverflowError
  /\ printed (trace (start_server (Some 70000) Reference.port_out_of_range)) = [].
Proof.
  exact (unhandled_bind_error_propagates Reference.port_out_of_range 70000
           OverflowError eq_refl eq_refl eq_refl).
Defined.

(* ===================================================================== *)
(** ** Where the handled exceptions come from *)
(* ===================================================================== *)

(** X3.  The [except OSError] clause covers the serve loop as well as
    the constructor.  With the socket bound, an [OSError] that ends the
    serve loop is reported by the same line as a refused bind, after the
    two start-up lines, and [start_server] returns. *)
Theorem serve_loop_oserror_reported_as_port_in_use (w : World) (P : Z) (e : exn) :
  bind_error w ("localhost", P) = None ->
  serve_interrupt w = Some e ->
  issubclass e OSError = true ->
  let r := start_server (Some P) w in
  printed (trace r)
  = ["Server running at http://localhost:" ++ str P ++ "/index.html";
     "Press Ctrl+C to stop";
     "Port " ++ str P ++ " in use. Try: python server.py " ++ str (P + 1)]
  /\ serving (trace r) = true
  /\ result r = Returned tt.
Proof.
  intros Hb Hs He r. subst r. unfold start_server.
  rewrite start_server_eq, Hb, Hs, He. repeat split.
Qed.

Lemma serve_loop_oserror_reported_as_port_in_use_witness :
  printed (trace (start_server (Some 8000) Reference.serve_loop_fails))
  = ["Server running at http://localhost:8000/index.html";
     "Press Ctrl+C to stop";
     "Port 8000 in use. Try: python server.py 8001"]
  /\ serving (trace (start_server (Some 8000) Reference.serve_loop_fails)) = true
  /\ result (start_server (Some 8000) Reference.serve_loop_fails) = Returned tt.
Proof.
  exact (serve_loop_oserror_reported_as_port_in_use Reference.serve_loop_fails
           8000 ConnectionError eq_refl eq_refl eq_refl).
Defined.

(** X4.  The [except KeyboardInterrupt] clause covers the constructor as
    well as the serve loop.  Interrupted while the server is being
    constructed, the run prints the stop message and nothing else,
    without having entered the serve loop or started the timer, and
    [start_server] returns. *)
Theorem interrupt_before_serving (w : World) (P : Z) :
  bind_error w ("localhost", P) = Some KeyboardInterrupt ->
  let r := start_server (Some P) w in
  printed (trace r) = [newline ++ "Server stopped"]
  /\ serving (trace r) = false
  /\ scheduled_calls (trace r) = []
  /\ result r = Returned tt.
Proof.
  intros Hb r. subst r. unfold start_server.
  rewrite start_server_eq, Hb. repeat split.
Qed.

Lemma interrupt_before_serving_witness :
  printed (trace (start_server (Some 8000) Reference.interrupted_early))
  = [newline ++ "Server stopped"]
  /\ serving (trace (start_server (Some 8000) Reference.interrupted_early)) = false
  /\ scheduled_calls (trace (start_server (Some 8000) Reference.interrupted_early))
     = []
  /\ result (start_server (Some 8000) Reference.interrupted_early) = Returned tt.
Proof.
  exact (interrupt_before_serving Reference.interrupted_early 8000 eq_refl).
Defined.

(* ===================================================================== *)
(** ** How a run can end *)
(* ===================================================================== *)

(** X5.  [start_server] keeps serving for ever exactly when the socket
    is bound and no exception ends the serve loop. *)
Theorem serves_forever_iff (w : World) (P : Z) :
  result (start_server (Some P) w) = Blocked
  <-> bind_error w ("localhost", P) = None /\ serve_interrupt w = None.
Proof.
  unfold start_server. rewrite start_server_eq. cbv zeta.
  destruct (bind_error w ("localhost", P)) as [e|].
  - split; [|intros [H _]; discriminate H].
    destruct (issubclass e OSError); [discriminate|].
    destruct (issubclass e KeyboardInterrupt); discriminate.
  - destruct (serve_interrupt w) as [e|].
    + split; [|intros [_ H]; discriminate H].
      destruct (issubclass e OSError); [discriminate|].
      destruct (issubclass e KeyboardInterrupt); discriminate.
    + split; auto.
Qed.

Lemma serves_forever_iff_witness :
  result (start_server (Some 8000) Reference.undisturbed) = Blocked.
Proof.
  exact (proj2 (serves_forever_iff Reference.undisturbed 8000)
           (conj eq_refl eq_refl)).
Defined.

(** X6.  [start_server] has no normal way out of the serve loop: when it
    returns, an [except] clause has run, so the last line printed is the
    port-in-use line or the stop message. *)
Theorem returns_only_after_message (w : World) (P : Z) :
  result (start_server (Some P) w) = Returned tt ->
  let lines := printed (trace (start_server (Some P) w)) in
  last lines EmptyString
  = "Port " ++ str P ++ " in use. Try: python server.py " ++ str (P + 1)
  \/ last lines EmptyString = newline ++ "Server stopped".
Proof.
  unfold start_server. rewrite start_server_eq. cbv zeta.
  destruct (bind_error w ("localhost", P)) as [e|].
  - destruct (issubclass e OSError); [intros _; left; reflexivity|].
    destruct (issubclass e KeyboardInterrupt);
      [intros _; right; reflexivity | discriminate].
  - destruct (serve_interrupt w) as [e|]; [|discriminate].
    destruct (issubclass e OSError); [intros _; left; reflexivity|].
    destruct (issubclass e KeyboardInterrupt);
      [intros _; right; reflexivity | discriminate].
Qed.

Lemma returns_only_after_message_witness :
  last (printed (trace (start_server (Some 8000) Reference.interrupted)))
       EmptyString
  = "Port 8000 in use. Try: python server.py 8001"
  \/ last (printed (trace (start_server (Some 8000) Reference.interrupted)))
          EmptyString
     = newline ++ "Server stopped".
Proof.
  exact (returns_only_after_message Reference.interrupted 8000 eq_refl).
Defined.

(* ===================================================================== *)
(** ** The server of a run *)
(* ===================================================================== *)

(** Membership in an explicit trace, one event at a time. *)
Ltac in_cases H :=
  repeat match type of H with
         | _ \/ _ => destruct H as [H|H]
         | False => destruct H
         | _ = _ => first [discriminate H | injection H; clear H; intros; subst]
         end.

(** The server that serves is the one [start_server] constructed. *)
Lemma served_is_constructed (w : World) (P : Z) (s : server) :
  In (EServeForever s) (trace (start_server_body P w)) ->
  s = mkServer ("localhost", P) JSHandler.
Proof.
  rewrite start_server_eq. cbv zeta.
  destruct (bind_error w ("localhost", P)) as [e|];
    [|destruct (serve_interrupt w) as [e|]];
    try (destruct (issubclass e OSError);
         [|destruct (issubclass e KeyboardInterrupt)]);
    unfold trace; simpl; intros H; in_cases H; reflexivity.
Qed.

(** X7.  Whatever the arguments and the world, a run of the program
    constructs at most one server.  A run with any event at all begins
    by constructing it, on host [localhost] with [JSHandler] as the
    handler class, and constructs no other afterwards. *)
Theorem one_server_on_localhost (rt : Runtime) (argv : list string) (w : World) :
  trace (main rt argv w) = []
  \/ exists P rest,
       trace (main rt argv w) = ENewServer ("localhost", P) JSHandler :: rest
       /\ server_created rest = false.
Proof.
  destruct (main_cases rt argv w) as [-> | [P ->]]; [left; reflexivity|].
  right. exists P. rewrite start_server_eq. cbv zeta.
  destruct (bind_error w ("localhost", P)) as [e|];
    [|destruct (serve_interrupt w) as [e|]];
    try (destruct (issubclass e OSError);
         [|destruct (issubclass e KeyboardInterrupt)]);
    eexists; split; reflexivity.
Qed.

(** X8.  The serve loop is entered, and the browser call scheduled,
    exactly when the constructor succeeded.  After a constructor that
    raised, whatever the exception, the run neither serves nor starts
    the timer. *)
Theorem serving_and_browser_follow_bind (w : World) (P : Z) :
  let r := start_server (Some P) w in
  serving (trace r)
  = match bind_error w ("localhost", P) with None => true | Some _ => false end
  /\ List.length (scheduled_calls (trace r))
     = match bind_error w ("localhost", P) with None => 1%nat | Some _ => 0%nat end.
Proof.
  cbv zeta. unfold start_server. rewrite start_server_eq. cbv zeta.
  destruct (bind_error w ("localhost", P)) as [e|];
    [|destruct (serve_interrupt w) as [e|]];
    try (destruct (issubclass e OSError);
         [|destruct (issubclass e KeyboardInterrupt)]);
    split; reflexivity.
Qed.

(** X9.  The override is in force for whatever a run serves: a server
    that has entered its serve loop resolves content types with
    [JSHandler], so on it every path ending in [.js] gets
    [application/javascript]. *)
Theorem served_js_is_javascript (rt : Runtime) (argv : list string) (w : World)
    (s : server) (path : string) :
  In (EServeForever s) (trace (main rt argv w)) ->
  endswith path ".js" = true ->
  guess_type rt (RequestHandlerClass s) path = "application/javascript".
Proof.
  intros Hin Hjs. destruct (main_cases rt argv w) as [E | [P E]];
    rewrite E in Hin.
  - destruct Hin.
  - apply served_is_constructed in Hin. subst s.
    now apply guess_type_override.
Qed.

Lemma served_js_is_javascript_witness :
  guess_type Reference.runtime
    (RequestHandlerClass (mkServer ("localhost", 8000) JSHandler))
    "/game/tiles.js"
  = "application/javascript".
Proof.
  apply (served_js_is_javascript Reference.runtime ["server.py"]
           Reference.interrupted).
  - cbn. right. right. right. right. left. reflexivity.
  - reflexivity.
Defined.

(** X11.  A URL the browser is sent to is the one the first line of
    output announced. *)
Theorem opened_url_was_announced (w : World) (P : Z) (delay : Q) (url : string) :
  In (delay, webbrowser_open url)
     (scheduled_calls (trace (start_server (Some P) w))) ->
  hd_error (printed (trace (start_server (Some P) w)))
  = Some ("Server running at " ++ url).
Proof.
  unfold start_server. rewrite start_server_eq. cbv zeta.
  destruct (bind_error w ("localhost", P)) as [e|];
    [|destruct (serve_interrupt w) as [e|]];
    try (destruct (issubclass e OSError);
         [|destruct (issubclass e KeyboardInterrupt)]);
    unfold trace; simpl; intros H; in_cases H; reflexivity.
Qed.

Lemma opened_url_was_announced_witness :
  hd_error (printed (trace (start_server (Some 8000) Reference.undisturbed)))
  = Some "Server running at http://localhost:8000/index.html".
Proof.
  exact (opened_url_was_announced Reference.undisturbed 8000 1
           "http://localhost:8000/index.html" (or_introl eq_refl)).
Defined.

(* ===================================================================== *)
(** ** What of [sys.argv] is read *)
(* ===================================================================== *)

(** X10.  Only [sys.argv[1]] is read: two argument vectors that agree
    there (both without it, or both with the same text) give the same
    run.  The script's name and any further argument make no
    difference. *)
Theorem main_reads_only_first_argument (rt : Runtime) (argv argv' : list string)
    (w : World) :
  nth_error argv 1 = nth_error argv' 1 ->
  main rt argv w = main rt argv' w.
Proof.
  intros H. destruct (nth_error argv 1) as [arg|] eqn:E.
  - destruct argv as [|p [|a more]]; try discriminate E.
    destruct argv' as [|p' [|a' more']]; try discriminate H.
    cbn in E, H. injection E as ->. injection H as <-.
    destruct (int_of_str rt arg) as [P|] eqn:Hint.
    + now rewrite !(main_port_argument _ _ _ _ _ P Hint).
    + now rewrite !(main_bad_argument _ _ _ _ _ Hint).
  - rewrite (main_short rt argv w E). symmetry. apply main_short. now symmetry.
Qed.

Lemma main_reads_only_first_argument_witness :
  main Reference.runtime ["server.py"; "8080"; "--verbose"] Reference.interrupted
  = main Reference.runtime ["./tools/server.py"; "8080"] Reference.interrupted.
Proof.
  exact (main_reads_only_first_argument Reference.runtime
           ["server.py"; "8080"; "--verbose"] ["./tools/server.py"; "8080"]
           Reference.interrupted eq_refl).
Defined.

(** X14.  Naming the default port has no effect: an argument that reads
    as 8000 gives the same run as no argument. *)
Theorem explicit_default_port (rt : Runtime) (prog prog' arg : string)
    (more : list string) (w : World) :
  int_of_str rt arg = Some 8000 ->
  main rt (prog :: arg :: more) w = main rt [prog'] w.
Proof.
  intros H. rewrite (main_port_argument rt prog arg more w 8000 H).
  symmetry. apply main_no_argument.
Qed.

Lemma explicit_default_port_witness :
  main Reference.runtime ["server.py"; " +8_000 "] Reference.interrupted
  = main Reference.runtime ["server.py"] Reference.interrupted.
Proof.
  exact (explicit_default_port Reference.runtime "server.py" "server.py"
           " +8_000 " [] Reference.interrupted eq_refl).
Defined.

(* ===================================================================== *)
(** ** What of the path the override reads *)
(* ===================================================================== *)

Lemma endswith_short (s suffix : string) :
  (String.length s < String.length suffix)%nat -> endswith s suffix = false.
Proof.
  intros H. unfold endswith.
  replace (String.length suffix <=? String.length s)%nat with false;
    [reflexivity|]. symmetry. apply Nat.leb_gt. exact H.
Qed.

Lemma endswith_tail (stem tail suffix : string) :
  String.length tail = String.length suffix ->
  endswith (stem ++ tail) suffix = String.eqb tail suffix.
Proof.
  intros H. unfold endswith. rewrite length_app, <- H.
  replace (String.length stem + String.length tail - String.length tail)%nat
    with (String.length stem) by lia.
  rewrite substring_past_prefix.
  replace (String.length tail <=? String.length stem + String.length tail)%nat
    with true; [reflexivity|]. symmetry. apply Nat.leb_le. lia.
Qed.

(** X12.  A path of fewer than three characters (the empty path, [js],
    [.j]) is never overridden: it gets the inherited answer. *)
Theorem short_path_not_overridden (rt : Runtime) (path : string) :
  (String.length path < 3)%nat ->
  guess_type rt JSHandler path = default_guess_type rt path.
Proof.
  intros H. apply guess_type_inherited. now apply endswith_short.
Qed.

Lemma short_path_not_overridden_witness :
  guess_type Reference.runtime JSHandler "js" = "application/octet-stream".
Proof.
  apply (short_path_not_overridden Reference.runtime "js"). cbn. lia.
Defined.

(** X13.  The override reads the last three characters of the path and
    nothing else: what comes before them (directories, the stem of the
    name, further dots) has no part in the choice between the forced
    type and the inherited answer. *)
Theorem override_decided_by_last_three (rt : Runtime) (stem tail : string) :
  String.length tail = 3%nat ->
  guess_type rt JSHandler (stem ++ tail)
  = if String.eqb tail ".js" then "application/javascript"
    else default_guess_type rt (stem ++ tail).
Proof.
  intros H. unfold guess_type. now rewrite (endswith_tail stem tail ".js").
Qed.

Lemma override_decided_by_last_three_witness :
  guess_type Reference.runtime JSHandler "/data/tiles.json" = "application/json"
  /\ guess_type Reference.runtime JSHandler "/data/tiles.json.js"
     = "application/javascript".
Proof.
  split.
  - exact (override_decided_by_last_three Reference.runtime "/data/tiles.j"
             "son" eq_refl).
  - exact (override_decided_by_last_three Reference.runtime "/data/tiles.json"
             ".js" eq_refl).
Defined.

(* ===================================================================== *)
(** ** The port in the output *)
(* ===================================================================== *)

(** The decimal rendering of an integer names that integer only. *)
Lemma str_inj (m n : Z) : str m = str n -> m = n.
Proof.
  unfold str. intros H. apply DecimalZ.to_int_inj.
  apply (f_equal NilEmpty.int_of_string) in H.
  rewrite !NilEmpty.isi in H. now injection H.
Qed.

Lemma append_inj_r (s : string) :
  forall a b, a ++ s = b ++ s -> a = b.
Proof.
  induction a as [|c a IH]; intros [|d b] H; simpl in H.
  - reflexivity.
  - apply (f_equal String.length) in H. simpl in H. rewrite length_app in H. lia.
  - apply (f_equal String.length) in H. simpl in H. rewrite length_app in H. lia.
  - injection H as -> H. f_equal. now apply IH.
Qed.

(** With the socket bound, the first line printed announces the URL. *)
Lemma first_line_when_bound (w : World) (P : Z) :
  bind_error w ("localhost", P) = None ->
  hd_error (printed (trace (start_server_body P w)))
  = Some ("Server running at http://localhost:" ++ str P ++ "/index.html").
Proof.
  intros Hb. rewrite start_server_eq, Hb. cbv zeta.
  destruct (serve_interrupt w) as [e|]; [|reflexivity].
  destruct (issubclass e OSError); [reflexivity|].
  destruct (issubclass e KeyboardInterrupt); reflexivity.
Qed.

(** X15.  The first line of output tells the port: two runs that bound
    their sockets and announced the same line served the same port. *)
Theorem announced_line_determines_port (w w' : World) (P Q : Z) :
  bind_error w ("localhost", P) = None ->
  bind_error w' ("localhost", Q) = None ->
  hd_error (printed (trace (start_server (Some P) w)))
  = hd_error (printed (trace (start_server (Some Q) w'))) ->
  P = Q.
Proof.
  intros Hb Hb'. unfold start_server.
  rewrite (first_line_when_bound w P Hb), (first_line_when_bound w' Q Hb').
  intros H. injection H as H.
  apply append_inj_r in H. now apply str_inj.
Qed.

Lemma announced_line_determines_port_witness : 8000 = 8000.
Proof.
  exact (announced_line_determines_port Reference.undisturbed
           Reference.interrupted 8000 8000 eq_refl eq_refl eq_refl).
Defined.
